(** * LAMMPS workflow assemblers of [atomate.lammps.workflows.core]

    A shallow embedding of the three workflow factories
    [get_wf_from_input_template], [get_packmol_wf] and [get_wf], and the
    properties of the graphs they build.

    Python values are embedded in [pyval]; the settings dictionaries the
    caller hands over are mutable objects, so they live in a store and
    are passed by reference.  Exceptions are values of [exn]; a function
    that can raise returns a [result]. *)

From Stdlib Require Import ZArith String List.
From stdpp Require Import gmap strings list fin_maps.

Open Scope string_scope.

(** ** Python values *)

#[warnings="-register-all"]
Inductive pyval :=
| VNone
| VBool (b : bool)
| VInt (n : Z)
| VFloat (mantissa exponent : Z)      (* decimal literal: mantissa * 10^exponent *)
| VStr (s : string)
| VObj (tag : string)                 (* an opaque object of a collaborator *)
| VList (items : list pyval)
| VDictRef (r : nat).                 (* reference to a dict in the store *)

(** A dict with string keys.  Only [get], [in], item lookup and item
    assignment are used by the module, so key order plays no role. *)
Abbreviation dict := (gmap string pyval).

(** The store of dict objects; a reference is an index into it. *)
Abbreviation heap := (list (gmap string pyval)).

Definition deref (σ : heap) (r : nat) : dict := default ∅ (σ !! r).

Inductive exn :=
| NameError (name : string)
| KeyError (key : string)
| AttributeError (attr : string)
| TypeError (msg : string).

Inductive result (A : Type) :=
| Ok (a : A)
| Raise (e : exn).
Arguments Ok {A} a.
Arguments Raise {A} e.

(** Computations that read and write the store and may raise.  The store
    is returned in both cases: writes made before an exception stay. *)
Definition M (A : Type) : Type := heap → heap * result A.

Definition ret {A} (a : A) : M A := λ σ, (σ, Ok a).
Definition raise {A} (e : exn) : M A := λ σ, (σ, Raise e).
Definition bind {A B} (m : M A) (k : A → M B) : M B :=
  λ σ, match m σ with
       | (σ', Ok a) => k a σ'
       | (σ', Raise e) => (σ', Raise e)
       end.

Notation "'let*' x := m 'in' k" := (bind m (λ x, k))
  (at level 10, x name, m at level 100, k at level 200).
Notation "m ;; k" := (bind m (λ _, k))
  (at level 100, k at level 200, right associativity).

(** A float literal denotes the double nearest to its decimal value, ties
    going to the even neighbour.  That double is zero exactly when the
    magnitude of the literal is at most [2^-1075], half of the least
    positive double; a literal too large for a double denotes infinity,
    which is not zero. *)
Definition float_is_zero (mantissa exponent : Z) : bool :=
  if (0 <=? exponent)%Z then (mantissa =? 0)%Z
  else (Z.abs mantissa * 2 ^ 1075 <=? 10 ^ (- exponent))%Z.
Arguments float_is_zero : simpl never.

(** Truth value of a Python object ([bool(v)]). *)
Definition truthy (σ : heap) (v : pyval) : bool :=
  match v with
  | VNone => false
  | VBool b => b
  | VInt n => negb (n =? 0)%Z
  | VFloat m e => negb (float_is_zero m e)
  | VStr s => negb (String.eqb s "")
  | VObj _ => true
  | VList items => match items with [] => false | _ :: _ => true end
  | VDictRef r => negb (bool_decide (deref σ r = ∅))
  end.

(** [{}]: a new empty dict. *)
Definition new_dict : M pyval := λ σ, ((σ ++ [∅])%list, Ok (VDictRef (length σ))).

(** [d.get(key, dflt)] *)
Definition dict_get (r : nat) (key : string) (dflt : pyval) : M pyval :=
  λ σ, (σ, Ok (default dflt (deref σ r !! key))).

(** [key in d] *)
Definition dict_contains (r : nat) (key : string) : M bool :=
  λ σ, (σ, Ok (bool_decide (is_Some (deref σ r !! key)))).

(** [d[key] = v] *)
Definition dict_setitem (r : nat) (key : string) (v : pyval) : M unit :=
  λ σ, (<[r := <[key := v]> (deref σ r)]> σ, Ok tt).

(** [d[key]] *)
Definition dict_getitem (r : nat) (key : string) : M pyval :=
  λ σ, match deref σ r !! key with
       | Some v => (σ, Ok v)
       | None => (σ, Raise (KeyError key))
       end.

(** ** The collaborators *)

(** Modelled from the spec: [LammpsInputSet.from_file] of pymatgen, an
    external collaborator.  Per section 4.1 it builds an input-set value by
    combining the template, the (now defaulted) configuration and the
    optional data payload; the value records what it was given, the
    configuration as it reads at the time of the call. *)
Record LammpsInputSet := {
  lis_name : pyval;
  lis_input_template : pyval;
  lis_user_settings : gmap string pyval;
  lis_lammps_data : pyval;
  lis_data_filename : pyval;
  lis_is_forcefield : pyval
}.

Definition from_file (name input_template : pyval) (user_settings : nat)
    (lammps_data data_filename is_forcefield : pyval) : M LammpsInputSet :=
  λ σ, (σ, Ok {| lis_name := name;
                 lis_input_template := input_template;
                 lis_user_settings := deref σ user_settings;
                 lis_lammps_data := lammps_data;
                 lis_data_filename := data_filename;
                 lis_is_forcefield := is_forcefield |}).

(** Keyword arguments of the plain-simulation factory. *)
Record LammpsFW_kw := {
  fw_lammps_input_set : LammpsInputSet;
  fw_input_filename : pyval;
  fw_data_filename : pyval;
  fw_lammps_cmd : pyval;
  fw_db_file : pyval;
  fw_log_filename : pyval;
  fw_dump_filename : pyval
}.

(** Arguments of the molecule-packing factory. *)
Record PackmolFW_kw := {
  pk_molecules : pyval;
  pk_packing_config : list (gmap string pyval);
  pk_tolerance : pyval;
  pk_filetype : string;
  pk_control_params : pyval;
  pk_copy_to_current_on_exit : bool;
  pk_output_file : string;
  pk_site_property : pyval
}.

(** Arguments of the force-field simulation factory. *)
Record LammpsForceFieldFW_kw := {
  ff_input_file : pyval;
  ff_data_source : string;
  ff_molecules : pyval;
  ff_mols_number : list pyval;
  ff_forcefield : pyval;
  ff_user_settings : pyval;
  ff_site_property : pyval;
  ff_input_filename : string;
  ff_lammps_cmd : pyval;
  ff_db_file : pyval;
  ff_log_filename : string;
  ff_dump_filename : pyval
}.

(** Objects that end up in a workflow: the three kinds of task node,
    each with the parents it was declared with, and tuples of them. *)
#[warnings="-register-all"]
Inductive pyobj :=
| NodeLammps (kw : LammpsFW_kw) (parents : list pyobj)
| NodePackmol (kw : PackmolFW_kw) (parents : list pyobj)
| NodeForceField (kw : LammpsForceFieldFW_kw) (parents : list pyobj)
| Tuple (items : list pyobj).

Definition parents_of (o : pyobj) : list pyobj :=
  match o with
  | NodeLammps _ ps | NodePackmol _ ps | NodeForceField _ ps => ps
  | Tuple _ => []
  end.

Definition is_node (o : pyobj) : bool :=
  match o with
  | Tuple _ => false
  | _ => true
  end.

(** Modelled from the spec: the factories [LammpsFW], [PackmolFW] and
    [LammpsForceFieldFW] of [atomate.lammps.fireworks.core], which are not
    part of the sources.  Per section 6 each consumes the listed arguments;
    per section 3 a node carries zero or more parent references, none when
    the call declares none. *)
Definition LammpsFW (kw : LammpsFW_kw) : pyobj := NodeLammps kw [].
Definition PackmolFW (kw : PackmolFW_kw) : pyobj := NodePackmol kw [].
Definition LammpsForceFieldFW (kw : LammpsForceFieldFW_kw) (parents : list pyobj) : pyobj :=
  NodeForceField kw parents.

(** Modelled from the spec: the graph container [Workflow] of fireworks,
    an external collaborator: a collection of nodes, each with its own
    parent references, and an optional name. *)
Record Workflow := {
  wf_fireworks : list pyobj;
  wf_name : option pyval
}.

(** ** [get_wf_from_input_template] *)

(** [user_settings or {}] *)
Definition or_new_dict (v : pyval) : M pyval :=
  λ σ, if truthy σ v then ret v σ else new_dict σ.

(** [user_settings if isinstance(user_settings, list) else [user_settings]] *)
Definition as_list (v : pyval) : list pyval :=
  match v with
  | VList items => items
  | _ => [v]
  end.

(** The body of the [for settings in user_settings] loop.  Of the values
    of [pyval] only a dict has a [get] method; on anything else the first
    statement raises. *)
Definition template_node
    (wf_name input_template_file lammps_data input_filename is_forcefield
     lammps_cmd dump_filenames db_file : pyval) (settings : pyval) : M pyobj :=
  match settings with
  | VDictRef r =>
      let* data_filename := dict_get r "data_file" (VStr "lammps.data") in
      let* has_log := dict_contains r "log_file" in
      (if has_log then ret tt else dict_setitem r "log_file" (VStr "log.lammps"));;
      let* lammps_input_set :=
        from_file wf_name input_template_file r lammps_data data_filename is_forcefield in
      let* log_filename := dict_getitem r "log_file" in
      ret (LammpsFW {| fw_lammps_input_set := lammps_input_set;
                       fw_input_filename := input_filename;
                       fw_data_filename := data_filename;
                       fw_lammps_cmd := lammps_cmd;
                       fw_db_file := db_file;
                       fw_log_filename := log_filename;
                       fw_dump_filename := dump_filenames |})
  | _ => raise (AttributeError "get")
  end.

(** [fws = []; for x in xs: fws.append(body(x))] *)
Fixpoint for_each {A B} (body : A → M B) (xs : list A) : M (list B) :=
  match xs with
  | [] => ret []
  | x :: xs' =>
      let* y := body x in
      let* ys := for_each body xs' in
      ret (y :: ys)
  end.

Definition get_wf_from_input_template
    (input_template_file user_settings lammps_data input_filename is_forcefield
     lammps_cmd dump_filenames db_file name : pyval) : M Workflow :=
  let wf_name := name in
  let* user_settings := or_new_dict user_settings in
  let user_settings := as_list user_settings in
  let* fws :=
    for_each (template_node wf_name input_template_file lammps_data input_filename
                            is_forcefield lammps_cmd dump_filenames db_file)
             user_settings in
  ret {| wf_fireworks := fws; wf_name := Some name |}.

(** The defaults of the signature. *)
Definition get_wf_from_input_template_defaults
    (input_template_file user_settings : pyval) : M Workflow :=
  get_wf_from_input_template input_template_file user_settings VNone
    (VStr "lammps.in") (VBool false) (VStr "lammps") VNone VNone
    (VStr "LAMMPS template Wflow").

(** ** [get_packmol_wf] *)

(** Computations that do not touch the store. *)
Definition rbind {A B} (m : result A) (k : A → result B) : result B :=
  match m with
  | Ok a => k a
  | Raise e => Raise e
  end.

Notation "'let+' x := m 'in' k" := (rbind m (λ x, k))
  (at level 10, x name, m at level 100, k at level 200).

(** The names the statements of the module bind at top level: the
    [__future__] features, the imported classes, the two dunder strings
    and the three functions.  (No builtin is called [forcefield], so the
    builtin namespace behind the module's is left out.) *)
Definition module_globals : gmap string pyval :=
  list_to_map
    [ ("division", VObj "__future__.division");
      ("print_function", VObj "__future__.print_function");
      ("unicode_literals", VObj "__future__.unicode_literals");
      ("absolute_import", VObj "__future__.absolute_import");
      ("Workflow", VObj "fireworks.Workflow");
      ("LammpsInputSet", VObj "pymatgen.io.lammps.sets.LammpsInputSet");
      ("LammpsFW", VObj "atomate.lammps.fireworks.core.LammpsFW");
      ("PackmolFW", VObj "atomate.lammps.fireworks.core.PackmolFW");
      ("LammpsForceFieldFW", VObj "atomate.lammps.fireworks.core.LammpsForceFieldFW");
      ("__author__", VStr "Kiran Mathew");
      ("__email__", VStr "kmathew@lbl.gov");
      ("get_wf_from_input_template", VObj "function get_wf_from_input_template");
      ("get_packmol_wf", VObj "function get_packmol_wf");
      ("get_wf", VObj "function get_wf") ].

(** The local names of [get_packmol_wf]: its parameters and the names
    its body assigns.  Any other name the body reads is a global. *)
Definition get_packmol_wf_params : list string :=
  [ "input_file"; "user_settings"; "molecules"; "packing_config"; "force_field";
    "box_size"; "site_property"; "tolerance"; "filetype"; "control_params";
    "lammps_cmd"; "dump_filenames"; "db_file"; "name" ].

Definition get_packmol_wf_assigned : list string :=
  [ "packmol_output_file"; "mols_number"; "mol_config"; "fw_packmol"; "fw_lammps"; "wf" ].

(** Reading a global name in namespace [G]. *)
Definition load_global (G : gmap string pyval) (name : string) : result pyval :=
  match G !! name with
  | Some v => Ok v
  | None => Raise (NameError name)
  end.

(** [[mol_config["number"] for mol_config in packing_config]] *)
Fixpoint mols_number_of (packing_config : list (gmap string pyval)) : result (list pyval) :=
  match packing_config with
  | [] => Ok []
  | mol_config :: rest =>
      match mol_config !! "number" with
      | Some n => let+ ns := mols_number_of rest in Ok (n :: ns)
      | None => Raise (KeyError "number")
      end
  end.

(** The log file name written in the call of the force-field factory. *)
Definition packmol_log_filename : string := "lammps.log".

(** [get_packmol_wf], run with [G] as the global namespace of the module.
    The body reads [forcefield], which is not a local name.  The statement
    that builds the packing node ends in a comma, so [fw_packmol] is a
    one-element tuple. *)
Definition get_packmol_wf_in (G : gmap string pyval)
    (input_file user_settings molecules : pyval)
    (packing_config : list (gmap string pyval))
    (force_field box_size site_property tolerance : pyval) (filetype : string)
    (control_params lammps_cmd dump_filenames db_file name : pyval) : result Workflow :=
  let packmol_output_file := "packed." ++ filetype in
  let+ mols_number := mols_number_of packing_config in
  let fw_packmol :=
    Tuple [ PackmolFW {| pk_molecules := molecules;
                         pk_packing_config := packing_config;
                         pk_tolerance := tolerance;
                         pk_filetype := filetype;
                         pk_control_params := control_params;
                         pk_copy_to_current_on_exit := true;
                         pk_output_file := packmol_output_file;
                         pk_site_property := site_property |} ] in
  let+ forcefield := load_global G "forcefield" in
  let fw_lammps :=
    LammpsForceFieldFW {| ff_input_file := input_file;
                          ff_data_source := packmol_output_file;
                          ff_molecules := molecules;
                          ff_mols_number := mols_number;
                          ff_forcefield := forcefield;
                          ff_user_settings := user_settings;
                          ff_site_property := site_property;
                          ff_input_filename := "lammps.in";
                          ff_lammps_cmd := lammps_cmd;
                          ff_db_file := db_file;
                          ff_log_filename := packmol_log_filename;
                          ff_dump_filename := dump_filenames |}
                       [fw_packmol] in
  let wf := {| wf_fireworks := [fw_packmol; fw_lammps]; wf_name := None |} in
  Ok wf.

(** The function as the module defines it. *)
Definition get_packmol_wf := get_packmol_wf_in module_globals.

(** The defaults of the signature of [get_packmol_wf]. *)
Definition get_packmol_wf_defaults
    (input_file user_settings molecules : pyval)
    (packing_config : list (gmap string pyval)) (force_field box_size : pyval)
    : result Workflow :=
  get_packmol_wf input_file user_settings molecules packing_config force_field box_size
    VNone (VFloat 20 (-1)) "xyz" VNone (VStr "lammps") VNone VNone
    (VStr "LAMMPS packmol Wflow").

(** ** [get_wf] *)

Definition get_wf (name : pyval) (lammps_input_set : LammpsInputSet)
    (input_filename data_filename lammps_cmd db_file log_filename dump_filenames : pyval)
    : Workflow :=
  let fws :=
    [ LammpsFW {| fw_lammps_input_set := lammps_input_set;
                  fw_input_filename := input_filename;
                  fw_data_filename := data_filename;
                  fw_lammps_cmd := lammps_cmd;
                  fw_db_file := db_file;
                  fw_log_filename := log_filename;
                  fw_dump_filename := dump_filenames |} ] in
  {| wf_fireworks := fws; wf_name := Some name |}.

(** ** What the loop is expected to do to one configuration *)

(** A configuration after the default log file name has been filled in. *)
Definition with_log_default (d : gmap string pyval) : gmap string pyval :=
  match d !! "log_file" with
  | Some _ => d
  | None => <["log_file" := VStr "log.lammps"]> d
  end.

(** The node expected for a configuration that reads [d] when its
    iteration starts. *)
Definition node_for
    (wf_name input_template_file lammps_data input_filename is_forcefield
     lammps_cmd dump_filenames db_file : pyval) (d : gmap string pyval) : pyobj :=
  let data_filename := default (VStr "lammps.data") (d !! "data_file") in
  NodeLammps
    {| fw_lammps_input_set :=
         {| lis_name := wf_name;
            lis_input_template := input_template_file;
            lis_user_settings := with_log_default d;
            lis_lammps_data := lammps_data;
            lis_data_filename := data_filename;
            lis_is_forcefield := is_forcefield |};
       fw_input_filename := input_filename;
       fw_data_filename := data_filename;
       fw_lammps_cmd := lammps_cmd;
       fw_db_file := db_file;
       fw_log_filename := default (VStr "log.lammps") (d !! "log_file");
       fw_dump_filename := dump_filenames |}
    [].

(** The store after the loop has visited the configurations [rs]. *)
Definition default_logs (rs : list nat) (σ : list (gmap string pyval))
    : list (gmap string pyval) :=
  foldl (λ σ r, <[r := with_log_default (deref σ r)]> σ) σ rs.

(** Number of items of the returned workflow, if one is returned. *)
Definition node_count (res : list (gmap string pyval) * result Workflow) : option nat :=
  match res.2 with
  | Ok wf => Some (length (wf_fireworks wf))
  | Raise _ => None
  end.

(** Log file names of the force-field nodes of a returned workflow. *)
Definition ff_log_filenames (res : result Workflow) : list string :=
  match res with
  | Ok wf =>
      omap (λ o, match o with
                 | NodeForceField kw _ => Some (ff_log_filename kw)
                 | _ => None
                 end) (wf_fireworks wf)
  | Raise _ => []
  end.

Open Scope list_scope.
Open Scope nat_scope.

(** [σ'] extends [σ]: each dict of [σ] is as before, or has received the
    default log file name. *)
Definition frame (σ σ' : list (gmap string pyval)) : Prop :=
  length σ ≤ length σ' ∧
  ∀ r, r < length σ →
    deref σ' r = deref σ r ∨ deref σ' r = with_log_default (deref σ r).

(** A computation that only ever extends the store. *)
Definition framed {A} (m : M A) : Prop := ∀ σ, frame σ (m σ).1.


(** ** The store *)

Lemma deref_insert_eq (σ : list (gmap string pyval)) r d :
  r < length σ → deref (<[r := d]> σ) r = d.
Proof. intros Hr. unfold deref. by rewrite list_lookup_insert_eq. Qed.

Lemma deref_insert_ne (σ : list (gmap string pyval)) r r' d :
  r ≠ r' → deref (<[r := d]> σ) r' = deref σ r'.
Proof. intros Hne. unfold deref. by rewrite list_lookup_insert_ne. Qed.

Lemma deref_insert_self (σ : list (gmap string pyval)) r :
  <[r := deref σ r]> σ = σ.
Proof.
  unfold deref. destruct (σ !! r) as [d|] eqn:E; simpl.
  - by apply list_insert_id.
  - apply list_insert_ge. by apply lookup_ge_None.
Qed.

Lemma deref_app_old (σ : list (gmap string pyval)) d r :
  r < length σ → deref (σ ++ [d]) r = deref σ r.
Proof. intros Hr. unfold deref. by rewrite lookup_app_l. Qed.

Lemma deref_app_new (σ : list (gmap string pyval)) d :
  deref (σ ++ [d]) (length σ) = d.
Proof.
  unfold deref. rewrite lookup_app_r by lia.
  by rewrite Nat.sub_diag.
Qed.

(** Floats at the edge of the doubles: [1e-400] and [2e-324] are zero,
    [3e-324] and [2.0] are not. *)
Lemma truthy_float_examples (σ : list (gmap string pyval)) :
  truthy σ (VFloat 1 (-400)) = false ∧ truthy σ (VFloat 2 (-324)) = false ∧
  truthy σ (VFloat 3 (-324)) = true ∧ truthy σ (VFloat 20 (-1)) = true ∧
  truthy σ (VFloat 0 5) = false.
Proof. repeat split; vm_compute; reflexivity. Qed.

(** ** Defaulting the log file name *)

Lemma with_log_default_log (d : gmap string pyval) :
  with_log_default d !! "log_file" = Some (default (VStr "log.lammps") (d !! "log_file")).
Proof.
  unfold with_log_default. destruct (d !! "log_file") eqn:E; simpl.
  - done.
  - by rewrite lookup_insert_eq.
Qed.

Lemma with_log_default_other (d : gmap string pyval) k :
  k ≠ "log_file" → with_log_default d !! k = d !! k.
Proof.
  intros Hk. unfold with_log_default. destruct (d !! "log_file"); [done|].
  by rewrite lookup_insert_ne.
Qed.

Lemma with_log_default_present (d : gmap string pyval) :
  is_Some (d !! "log_file") → with_log_default d = d.
Proof. intros [v Hv]. unfold with_log_default. by rewrite Hv. Qed.

Lemma with_log_default_absent (d : gmap string pyval) :
  d !! "log_file" = None → with_log_default d = <["log_file" := VStr "log.lammps"]> d.
Proof. intros Hv. unfold with_log_default. by rewrite Hv. Qed.

Lemma with_log_default_idem (d : gmap string pyval) :
  with_log_default (with_log_default d) = with_log_default d.
Proof. apply with_log_default_present. rewrite with_log_default_log. eauto. Qed.

Lemma node_for_idem wn tf ld inf isf cmd dmp db (d : gmap string pyval) :
  node_for wn tf ld inf isf cmd dmp db (with_log_default d)
  = node_for wn tf ld inf isf cmd dmp db d.
Proof.
  unfold node_for. rewrite with_log_default_idem, with_log_default_log.
  by rewrite with_log_default_other.
Qed.

(** ** The loop of [get_wf_from_input_template] *)

Section template_loop.
Variables (wf_name input_template_file lammps_data input_filename is_forcefield
           lammps_cmd dump_filenames db_file : pyval).

Let body := template_node wf_name input_template_file lammps_data input_filename
                          is_forcefield lammps_cmd dump_filenames db_file.
Let node := node_for wf_name input_template_file lammps_data input_filename
                     is_forcefield lammps_cmd dump_filenames db_file.

(** One iteration on a configuration of the store. *)
Lemma template_node_dict (σ : list (gmap string pyval)) r :
  r < length σ →
  body (VDictRef r) σ
  = (<[r := with_log_default (deref σ r)]> σ, Ok (node (deref σ r))).
Proof.
  intros Hr. unfold body, node, template_node, node_for, bind, dict_get,
    dict_contains, dict_setitem, from_file, dict_getitem, ret, LammpsFW.
  unfold with_log_default.
  destruct (deref σ r !! "log_file") as [v|] eqn:E.
  - rewrite bool_decide_eq_true_2 by eauto. simpl.
    rewrite E. simpl. by rewrite deref_insert_self.
  - rewrite bool_decide_eq_false_2 by (intros [? ?]; congruence). simpl.
    rewrite deref_insert_eq by done.
    by rewrite lookup_insert_eq.
Qed.

(** One iteration on something that is not a dict. *)
Lemma template_node_not_dict (σ : list (gmap string pyval)) v :
  (∀ r, v ≠ VDictRef r) → body v σ = (σ, Raise (AttributeError "get")).
Proof. intros Hv. destruct v; try done. by destruct (Hv r). Qed.

(** The whole loop over configurations of the store: the nodes are those
    of the configurations as they read before the call, in order. *)
Lemma for_each_configs (rs : list nat) (σ : list (gmap string pyval)) :
  Forall (λ r, r < length σ) rs →
  for_each body (VDictRef <$> rs) σ
  = (default_logs rs σ, Ok ((λ r, node (deref σ r)) <$> rs)).
Proof.
  revert σ. induction rs as [|r rs IH]; intros σ Hrs; [done|].
  apply Forall_cons in Hrs as [Hr Hrs].
  rewrite fmap_cons. cbn [for_each]. unfold bind at 1.
  fold body. rewrite template_node_dict by done.
  unfold bind at 1. rewrite IH.
  2:{ eapply Forall_impl; [exact Hrs|]. intros r'. simpl. by rewrite length_insert. }
  unfold ret. simpl. do 3 f_equal.
  apply list_fmap_ext. intros _ r' _.
  destruct (decide (r = r')) as [->|Hne].
  - rewrite deref_insert_eq by done. apply node_for_idem.
  - by rewrite deref_insert_ne.
Qed.
End template_loop.

Lemma default_logs_cons r0 rs (σ : list (gmap string pyval)) :
  default_logs (r0 :: rs) σ
  = default_logs rs (<[r0 := with_log_default (deref σ r0)]> σ).
Proof. done. Qed.

Lemma default_logs_length rs (σ : list (gmap string pyval)) :
  length (default_logs rs σ) = length σ.
Proof.
  revert σ. induction rs as [|r rs IH]; intros σ; [done|].
  rewrite default_logs_cons, IH. apply length_insert.
Qed.

Lemma default_logs_unvisited rs (σ : list (gmap string pyval)) r :
  r ∉ rs → deref (default_logs rs σ) r = deref σ r.
Proof.
  revert σ. induction rs as [|r0 rs IH]; intros σ Hr; [done|].
  apply not_elem_of_cons in Hr as [Hne Hr].
  rewrite default_logs_cons, IH by done. by rewrite deref_insert_ne.
Qed.

Lemma default_logs_visited rs (σ : list (gmap string pyval)) r :
  r < length σ → r ∈ rs →
  deref (default_logs rs σ) r = with_log_default (deref σ r).
Proof.
  revert σ. induction rs as [|r0 rs IH]; intros σ Hr Hin.
  { by apply elem_of_nil in Hin. }
  rewrite default_logs_cons.
  destruct (decide (r ∈ rs)) as [Hrs|Hrs].
  - rewrite IH by (rewrite ?length_insert; done).
    destruct (decide (r0 = r)) as [->|Hne].
    + rewrite deref_insert_eq by done. apply with_log_default_idem.
    + by rewrite deref_insert_ne.
  - apply elem_of_cons in Hin as [->|?]; [|done].
    rewrite default_logs_unvisited by done. by rewrite deref_insert_eq.
Qed.

(** ** What a call may do to the caller's dicts *)

Lemma frame_refl (σ : list (gmap string pyval)) : frame σ σ.
Proof. split; [done|]. intros; by left. Qed.

Lemma frame_trans (σ1 σ2 σ3 : list (gmap string pyval)) :
  frame σ1 σ2 → frame σ2 σ3 → frame σ1 σ3.
Proof.
  intros [Hl1 H1] [Hl2 H2]. split; [lia|]. intros r Hr.
  destruct (H1 r Hr) as [E1|E1], (H2 r ltac:(lia)) as [E2|E2];
    rewrite E2, E1, ?with_log_default_idem; auto.
Qed.

Lemma frame_insert (σ : list (gmap string pyval)) r :
  frame σ (<[r := with_log_default (deref σ r)]> σ).
Proof.
  split; [by rewrite length_insert|]. intros r' Hr'.
  destruct (decide (r = r')) as [->|Hne].
  - right. by rewrite deref_insert_eq.
  - left. by rewrite deref_insert_ne.
Qed.

Lemma frame_app (σ : list (gmap string pyval)) d : frame σ (σ ++ [d]).
Proof.
  split; [rewrite length_app; lia|]. intros r Hr. left. by apply deref_app_old.
Qed.

Lemma framed_ret {A} (a : A) : framed (ret a).
Proof. intros σ. apply frame_refl. Qed.

Lemma framed_raise {A} e : framed (@raise A e).
Proof. intros σ. apply frame_refl. Qed.

Lemma framed_bind {A B} (m : M A) (k : A → M B) :
  framed m → (∀ a, framed (k a)) → framed (bind m k).
Proof.
  intros Hm Hk σ. unfold bind. specialize (Hm σ).
  destruct (m σ) as [σ1 [a|e]]; simpl in *; [|done].
  eapply frame_trans; [exact Hm|apply Hk].
Qed.

Lemma framed_for_each {A B} (body : A → M B) xs :
  (∀ x, framed (body x)) → framed (for_each body xs).
Proof.
  intros Hbody. induction xs as [|x xs IH]; simpl.
  - apply framed_ret.
  - apply framed_bind; [done|]. intros y.
    apply framed_bind; [done|]. intros ys. apply framed_ret.
Qed.

Lemma framed_or_new_dict v : framed (or_new_dict v).
Proof.
  intros σ. unfold or_new_dict, ret, new_dict. destruct (truthy σ v); simpl.
  - apply frame_refl.
  - apply frame_app.
Qed.

(** The store after one iteration, whether it raises or not. *)
Lemma template_node_store wn tf ld inf isf cmd dmp db
    (σ : list (gmap string pyval)) v :
  (template_node wn tf ld inf isf cmd dmp db v σ).1
  = match v with
    | VDictRef r => <[r := with_log_default (deref σ r)]> σ
    | _ => σ
    end.
Proof.
  destruct v; try done.
  unfold template_node, bind, dict_get, dict_contains, dict_setitem,
    from_file, dict_getitem, ret, with_log_default.
  destruct (deref σ r !! "log_file") as [v|] eqn:E.
  - rewrite bool_decide_eq_true_2 by eauto. simpl.
    rewrite E. simpl. by rewrite deref_insert_self.
  - rewrite bool_decide_eq_false_2 by (intros [? ?]; congruence). simpl.
    by destruct (deref (<[r:=_]> σ) r !! "log_file").
Qed.

Lemma framed_template_node wn tf ld inf isf cmd dmp db v :
  framed (template_node wn tf ld inf isf cmd dmp db v).
Proof.
  intros σ. rewrite template_node_store. destruct v; try apply frame_refl.
  apply frame_insert.
Qed.

Lemma or_new_dict_ok (σ : list (gmap string pyval)) v :
  or_new_dict v σ
  = if truthy σ v then (σ, Ok v) else (σ ++ [∅], Ok (VDictRef (length σ))).
Proof. unfold or_new_dict, ret, new_dict. by destruct (truthy σ v). Qed.

Lemma framed_get_wf_from_input_template tf us ld inf isf cmd dmp db nm :
  framed (get_wf_from_input_template tf us ld inf isf cmd dmp db nm).
Proof.
  unfold get_wf_from_input_template.
  apply framed_bind; [apply framed_or_new_dict|]. intros v.
  apply framed_bind; [|intros; apply framed_ret].
  apply framed_for_each. intros x. apply framed_template_node.
Qed.

(** ** The call as a whole *)

Section template_call.
Variables (input_template_file lammps_data input_filename is_forcefield
           lammps_cmd dump_filenames db_file name : pyval).

Let run us := get_wf_from_input_template input_template_file us lammps_data
                input_filename is_forcefield lammps_cmd dump_filenames db_file name.
Let node := node_for name input_template_file lammps_data input_filename
                     is_forcefield lammps_cmd dump_filenames db_file.

(** A call on a non-empty list of configurations of the store. *)
Lemma call_list (rs : list nat) (σ : list (gmap string pyval)) :
  rs ≠ [] → Forall (λ r, r < length σ) rs →
  run (VList (VDictRef <$> rs)) σ
  = (default_logs rs σ,
     Ok {| wf_fireworks := (λ r, node (deref σ r)) <$> rs; wf_name := Some name |}).
Proof.
  intros Hne Hrs. unfold run, get_wf_from_input_template. unfold bind at 1.
  rewrite or_new_dict_ok.
  assert (truthy σ (VList (VDictRef <$> rs)) = true) as -> by by destruct rs.
  unfold bind. cbn [as_list]. by rewrite for_each_configs.
Qed.

(** A call on a single non-empty configuration of the store. *)
Lemma call_dict r (σ : list (gmap string pyval)) :
  r < length σ → deref σ r ≠ ∅ →
  run (VDictRef r) σ
  = (default_logs [r] σ,
     Ok {| wf_fireworks := [node (deref σ r)]; wf_name := Some name |}).
Proof.
  intros Hr Hd. unfold run, get_wf_from_input_template. unfold bind at 1.
  rewrite or_new_dict_ok.
  assert (truthy σ (VDictRef r) = true) as ->.
  { simpl. by rewrite bool_decide_eq_false_2. }
  unfold bind. cbn [as_list].
  by rewrite (for_each_configs _ _ _ _ _ _ _ _ [r]) by (by constructor).
Qed.

(** A call on a falsy argument. *)
Lemma call_falsy v (σ : list (gmap string pyval)) :
  truthy σ v = false →
  run v σ
  = (σ ++ [with_log_default ∅],
     Ok {| wf_fireworks := [node ∅]; wf_name := Some name |}).
Proof.
  intros Hv. unfold run, get_wf_from_input_template. unfold bind at 1.
  rewrite or_new_dict_ok, Hv.
  unfold bind. cbn [as_list].
  rewrite (for_each_configs _ _ _ _ _ _ _ _ [length σ]).
  2:{ constructor; [|done]. rewrite length_app. simpl. lia. }
  simpl. rewrite deref_app_new.
  rewrite <- (Nat.add_0_r (length σ)) at 1. by rewrite insert_app_r.
Qed.
End template_call.

(** ** Properties of [get_wf_from_input_template] *)

(** C1: for every non-empty list of N run configurations passed as
    [user_settings], the call returns a graph of exactly N task nodes, the
    i-th being the node of the i-th configuration, and no node has a
    parent. *)
Theorem C1_one_node_per_configuration tf ld inf isf cmd dmp db nm
    (σ : list (gmap string pyval)) (rs : list nat) :
  rs ≠ [] → Forall (λ r, r < length σ) rs →
  ∃ σ' fws,
    get_wf_from_input_template tf (VList (VDictRef <$> rs)) ld inf isf cmd dmp db nm σ
    = (σ', Ok {| wf_fireworks := fws; wf_name := Some nm |}) ∧
    length fws = length rs ∧
    (∀ i r, rs !! i = Some r →
       fws !! i = Some (node_for nm tf ld inf isf cmd dmp db (deref σ r))) ∧
    Forall (λ fw, is_node fw = true ∧ parents_of fw = []) fws.
Proof.
  intros Hne Hrs. eexists _, _. split; [by apply call_list|].
  split; [by rewrite length_fmap|]. split.
  - intros i r Hi. by rewrite list_lookup_fmap, Hi.
  - apply Forall_fmap, Forall_true. by intros r.
Qed.

Lemma C1_witness :
  let σ := [{["data_file" := VStr "a.data"]}; {["log_file" := VStr "b.log"]}] in
  let rs := [1; 0; 1] in
  ∃ σ' fws,
    get_wf_from_input_template (VStr "in.template") (VList (VDictRef <$> rs)) VNone
      (VStr "lammps.in") (VBool false) (VStr "lammps") VNone VNone (VStr "wf") σ
    = (σ', Ok {| wf_fireworks := fws; wf_name := Some (VStr "wf") |}) ∧
    length fws = length rs ∧
    (∀ i r, rs !! i = Some r →
       fws !! i = Some (node_for (VStr "wf") (VStr "in.template") VNone (VStr "lammps.in")
                          (VBool false) (VStr "lammps") VNone VNone (deref σ r))) ∧
    Forall (λ fw, is_node fw = true ∧ parents_of fw = []) fws.
Proof.
  intros σ rs. apply C1_one_node_per_configuration.
  - discriminate.
  - repeat constructor.
Defined.

(** C4 fails as stated: on the empty list the call returns one node, not
    zero. *)
Lemma C4_counterexample :
  node_count (get_wf_from_input_template_defaults (VStr "in.template") (VList []) [])
  = Some 1
  ∧ node_count (get_wf_from_input_template_defaults (VStr "in.template") (VList []) [])
    ≠ Some 0.
Proof. split; [reflexivity|discriminate]. Qed.

(** C4, amended: when the empty list is passed as [user_settings] no error
    is raised; the empty list is falsy, so it is replaced by a new empty
    dict, which is wrapped into a one-element list, and the returned graph
    has exactly one task node, with the default file names. *)
Theorem C4_empty_list_one_node tf ld inf isf cmd dmp db nm
    (σ : list (gmap string pyval)) :
  or_new_dict (VList []) σ = (σ ++ [∅], Ok (VDictRef (length σ))) ∧
  get_wf_from_input_template tf (VList []) ld inf isf cmd dmp db nm σ
  = (σ ++ [{["log_file" := VStr "log.lammps"]}],
     Ok {| wf_fireworks := [node_for nm tf ld inf isf cmd dmp db ∅];
           wf_name := Some nm |}) ∧
  node_count (get_wf_from_input_template tf (VList []) ld inf isf cmd dmp db nm σ)
  = Some 1.
Proof.
  split; [done|].
  assert (get_wf_from_input_template tf (VList []) ld inf isf cmd dmp db nm σ
          = (σ ++ [{["log_file" := VStr "log.lammps"]}],
             Ok {| wf_fireworks := [node_for nm tf ld inf isf cmd dmp db ∅];
                   wf_name := Some nm |})) as E.
  { by rewrite call_falsy. }
  split; [done|]. by rewrite E.
Qed.

(** C5: for every falsy [user_settings] argument named by the claim
    ([None], an empty dict, an empty list) the argument is replaced by a
    new empty dict and wrapped into a one-element list, and the returned
    graph has exactly one task node, whose data file name is
    ["lammps.data"] and whose log file name is ["log.lammps"]. *)
Theorem C5_falsy_settings_default_node tf ld inf isf cmd dmp db nm
    (σ : list (gmap string pyval)) (v : pyval) :
  v = VNone ∨ v = VList [] ∨ (∃ r, v = VDictRef r ∧ deref σ r = ∅) →
  or_new_dict v σ = (σ ++ [∅], Ok (VDictRef (length σ))) ∧
  as_list (VDictRef (length σ)) = [VDictRef (length σ)] ∧
  ∃ σ' kw,
    get_wf_from_input_template tf v ld inf isf cmd dmp db nm σ
    = (σ', Ok {| wf_fireworks := [NodeLammps kw []]; wf_name := Some nm |}) ∧
    fw_data_filename kw = VStr "lammps.data" ∧
    fw_log_filename kw = VStr "log.lammps".
Proof.
  intros Hv.
  assert (truthy σ v = false) as Hf.
  { destruct Hv as [-> | [-> | (r & -> & Hr)]]; [done..|].
    simpl. by rewrite bool_decide_eq_true_2. }
  split; [by rewrite or_new_dict_ok, Hf|]. split; [done|].
  eexists _, _. split; [by apply call_falsy|]. done.
Qed.

Lemma C5_witness :
  let σ := [∅] in
  let v := VDictRef 0 in
  or_new_dict v σ = (σ ++ [∅], Ok (VDictRef (length σ))) ∧
  as_list (VDictRef (length σ)) = [VDictRef (length σ)] ∧
  ∃ σ' kw,
    get_wf_from_input_template (VStr "in.template") v VNone (VStr "lammps.in")
      (VBool false) (VStr "lammps") VNone VNone (VStr "wf") σ
    = (σ', Ok {| wf_fireworks := [NodeLammps kw []]; wf_name := Some (VStr "wf") |}) ∧
    fw_data_filename kw = VStr "lammps.data" ∧
    fw_log_filename kw = VStr "log.lammps".
Proof.
  intros σ v. apply C5_falsy_settings_default_node.
  right. right. exists 0. split; reflexivity.
Defined.

(** C6: for every configuration of the store, passing it bare returns the
    same one-node graph as passing the one-element list that holds it, all
    other arguments equal: in both cases the graph named by the call whose
    only item is the parentless task node of that configuration. *)
Theorem C6_bare_dict_same_as_singleton tf ld inf isf cmd dmp db nm
    (σ : list (gmap string pyval)) (r : nat) :
  r < length σ →
  (get_wf_from_input_template tf (VDictRef r) ld inf isf cmd dmp db nm σ).2
  = (get_wf_from_input_template tf (VList [VDictRef r]) ld inf isf cmd dmp db nm σ).2
  ∧ (get_wf_from_input_template tf (VDictRef r) ld inf isf cmd dmp db nm σ).2
    = Ok {| wf_fireworks := [node_for nm tf ld inf isf cmd dmp db (deref σ r)];
            wf_name := Some nm |}
  ∧ (get_wf_from_input_template tf (VList [VDictRef r]) ld inf isf cmd dmp db nm σ).2
    = Ok {| wf_fireworks := [node_for nm tf ld inf isf cmd dmp db (deref σ r)];
            wf_name := Some nm |}
  ∧ ∃ kw, node_for nm tf ld inf isf cmd dmp db (deref σ r) = NodeLammps kw [].
Proof.
  intros Hr.
  rewrite (call_list _ _ _ _ _ _ _ _ [r]) by (by repeat constructor).
  destruct (decide (deref σ r = ∅)) as [He|Hne].
  - rewrite call_falsy by (simpl; by rewrite bool_decide_eq_true_2).
    simpl. rewrite He. repeat split. by eexists.
  - rewrite call_dict by done. simpl. repeat split. by eexists.
Qed.

Lemma C6_witness :
  let σ := [∅; {["data_file" := VStr "a.data"]}] in
  (get_wf_from_input_template (VStr "in.template") (VDictRef 1) VNone (VStr "lammps.in")
     (VBool false) (VStr "lammps") VNone VNone (VStr "wf") σ).2
  = (get_wf_from_input_template (VStr "in.template") (VList [VDictRef 1]) VNone
       (VStr "lammps.in") (VBool false) (VStr "lammps") VNone VNone (VStr "wf") σ).2
  ∧ (get_wf_from_input_template (VStr "in.template") (VDictRef 1) VNone
       (VStr "lammps.in") (VBool false) (VStr "lammps") VNone VNone (VStr "wf") σ).2
    = Ok {| wf_fireworks :=
              [node_for (VStr "wf") (VStr "in.template") VNone (VStr "lammps.in")
                 (VBool false) (VStr "lammps") VNone VNone (deref σ 1)];
            wf_name := Some (VStr "wf") |}
  ∧ (get_wf_from_input_template (VStr "in.template") (VList [VDictRef 1]) VNone
       (VStr "lammps.in") (VBool false) (VStr "lammps") VNone VNone (VStr "wf") σ).2
    = Ok {| wf_fireworks :=
              [node_for (VStr "wf") (VStr "in.template") VNone (VStr "lammps.in")
                 (VBool false) (VStr "lammps") VNone VNone (deref σ 1)];
            wf_name := Some (VStr "wf") |}
  ∧ ∃ kw, node_for (VStr "wf") (VStr "in.template") VNone (VStr "lammps.in")
            (VBool false) (VStr "lammps") VNone VNone (deref σ 1)
          = NodeLammps kw [].
Proof.
  intros σ. apply C6_bare_dict_same_as_singleton. simpl. lia.
Defined.

(** C7 fails as stated: a caller that passes a bare empty dict, which
    lacks ["log_file"], finds it still empty after the call; the default
    went into the new dict that replaced it. *)
Lemma C7_counterexample :
  let σ := [∅] in
  let res := get_wf_from_input_template_defaults (VStr "in.template") (VDictRef 0) σ in
  deref σ 0 !! "log_file" = None ∧
  node_count res = Some 1 ∧
  deref res.1 0 !! "log_file" ≠ Some (VStr "log.lammps").
Proof. repeat split; try reflexivity. discriminate. Qed.

(** C7, amended: for every run configuration of a truthy [user_settings]
    argument (a non-empty list of dicts or a bare non-empty dict), the
    node's data file name is the configuration's ["data_file"], or
    ["lammps.data"] when it has none; the log file name is the
    configuration's ["log_file"], and when it has none the key is written
    into the caller's dict in place with value ["log.lammps"] before the
    dict is passed to the factory.  A bare empty dict is replaced by a new
    one: the node has both default names, the new dict receives the key and
    the caller's dict stays empty. *)
Theorem C7_defaults_written_in_place tf ld inf isf cmd dmp db nm :
  (∀ (σ : list (gmap string pyval)) v rs i r,
     truthy σ v = true → as_list v = VDictRef <$> rs →
     Forall (λ r, r < length σ) rs → rs !! i = Some r →
     ∃ σ' fws kw,
       get_wf_from_input_template tf v ld inf isf cmd dmp db nm σ
       = (σ', Ok {| wf_fireworks := fws; wf_name := Some nm |}) ∧
       fws !! i = Some (NodeLammps kw []) ∧
       fw_data_filename kw = default (VStr "lammps.data") (deref σ r !! "data_file") ∧
       fw_log_filename kw = default (VStr "log.lammps") (deref σ r !! "log_file") ∧
       deref σ' r !! "log_file"
       = Some (default (VStr "log.lammps") (deref σ r !! "log_file")) ∧
       lis_user_settings (fw_lammps_input_set kw) = deref σ' r)
  ∧
  (∀ (σ : list (gmap string pyval)) r,
     r < length σ → deref σ r = ∅ →
     ∃ σ' kw,
       get_wf_from_input_template tf (VDictRef r) ld inf isf cmd dmp db nm σ
       = (σ', Ok {| wf_fireworks := [NodeLammps kw []]; wf_name := Some nm |}) ∧
       fw_data_filename kw = VStr "lammps.data" ∧
       fw_log_filename kw = VStr "log.lammps" ∧
       deref σ' (length σ) = {["log_file" := VStr "log.lammps"]} ∧
       lis_user_settings (fw_lammps_input_set kw) = deref σ' (length σ) ∧
       deref σ' r = ∅).
Proof.
  split.
  - intros σ v rs i r Hv Has Hrs Hi.
    assert (get_wf_from_input_template tf v ld inf isf cmd dmp db nm σ
            = (default_logs rs σ,
               Ok {| wf_fireworks :=
                       (λ r, node_for nm tf ld inf isf cmd dmp db (deref σ r)) <$> rs;
                     wf_name := Some nm |})) as E.
    { destruct v; simpl in Has; try (destruct rs as [|? [|? ?]]; discriminate).
      - subst items. apply call_list; [|done]. by destruct rs.
      - destruct rs as [|r1 [|? ?]]; try discriminate.
        injection Has as <-. apply Forall_cons in Hrs as [Hr0 _].
        apply call_dict; [done|]. simpl in Hv.
        intros He. by rewrite bool_decide_eq_true_2 in Hv. }
    assert (r < length σ) as Hr.
    { eapply Forall_lookup_1 in Hrs; [|exact Hi]. done. }
    assert (r ∈ rs) as Hin by (by eapply list_elem_of_lookup_2).
    eexists _, _, _. split; [exact E|].
    split; [by rewrite list_lookup_fmap, Hi|].
    rewrite default_logs_visited by done. simpl.
    by rewrite with_log_default_log.
  - intros σ r Hr He. eexists _, _. split.
    { apply call_falsy. simpl. by rewrite bool_decide_eq_true_2. }
    simpl. rewrite deref_app_new, deref_app_old, He by done. done.
Qed.

Lemma C7_witness :
  let σ := [{["data_file" := VStr "a.data"]}; {["log_file" := VStr "b.log"]}] in
  let v := VList [VDictRef 0; VDictRef 1] in
  ∃ σ' fws kw,
    get_wf_from_input_template (VStr "in.template") v VNone (VStr "lammps.in")
      (VBool false) (VStr "lammps") VNone VNone (VStr "wf") σ
    = (σ', Ok {| wf_fireworks := fws; wf_name := Some (VStr "wf") |}) ∧
    fws !! 0 = Some (NodeLammps kw []) ∧
    fw_data_filename kw = default (VStr "lammps.data") (deref σ 0 !! "data_file") ∧
    fw_log_filename kw = default (VStr "log.lammps") (deref σ 0 !! "log_file") ∧
    deref σ' 0 !! "log_file"
    = Some (default (VStr "log.lammps") (deref σ 0 !! "log_file")) ∧
    lis_user_settings (fw_lammps_input_set kw) = deref σ' 0.
Proof.
  intros σ v.
  apply (proj1 (C7_defaults_written_in_place (VStr "in.template") VNone (VStr "lammps.in")
                  (VBool false) (VStr "lammps") VNone VNone (VStr "wf"))
               σ v [0; 1] 0 0).
  - reflexivity.
  - reflexivity.
  - repeat constructor.
  - reflexivity.
Defined.

(** C8: whatever is passed as [user_settings], for every dict of the
    caller the only change the call can make is adding the key
    ["log_file"] when it is absent: every other key keeps its value, and a
    dict that already has ["log_file"] is left as it was. *)
Theorem C8_only_log_file_is_added tf us ld inf isf cmd dmp db nm
    (σ : list (gmap string pyval)) (r : nat) :
  r < length σ →
  let σ' := (get_wf_from_input_template tf us ld inf isf cmd dmp db nm σ).1 in
  (∀ k, k ≠ "log_file" → deref σ' r !! k = deref σ r !! k) ∧
  (is_Some (deref σ r !! "log_file") → deref σ' r = deref σ r) ∧
  (deref σ' r = deref σ r ∨
   (deref σ r !! "log_file" = None ∧
    deref σ' r = <["log_file" := VStr "log.lammps"]> (deref σ r))).
Proof.
  intros Hr σ'.
  destruct (framed_get_wf_from_input_template tf us ld inf isf cmd dmp db nm σ)
    as [_ Hf].
  fold σ' in Hf. specialize (Hf r Hr). repeat split.
  - intros k Hk. destruct Hf as [-> | ->]; [done|]. by apply with_log_default_other.
  - intros Hs. destruct Hf as [-> | ->]; [done|]. by apply with_log_default_present.
  - destruct (deref σ r !! "log_file") as [w|] eqn:E.
    + left. destruct Hf as [-> | ->]; [done|]. apply with_log_default_present. eauto.
    + destruct Hf as [-> | ->]; [by left|]. right. split; [done|].
      by apply with_log_default_absent.
Qed.

Lemma C8_witness :
  let σ := [{["data_file" := VStr "a.data"]}; {["log_file" := VStr "b.log"]}] in
  let σ' := (get_wf_from_input_template (VStr "in.template")
               (VList [VDictRef 0; VDictRef 1]) VNone (VStr "lammps.in")
               (VBool false) (VStr "lammps") VNone VNone (VStr "wf") σ).1 in
  (∀ k, k ≠ "log_file" → deref σ' 0 !! k = deref σ 0 !! k) ∧
  (is_Some (deref σ 0 !! "log_file") → deref σ' 0 = deref σ 0) ∧
  (deref σ' 0 = deref σ 0 ∨
   (deref σ 0 !! "log_file" = None ∧
    deref σ' 0 = <["log_file" := VStr "log.lammps"]> (deref σ 0))).
Proof.
  intros σ. apply C8_only_log_file_is_added. simpl. lia.
Defined.

(** ** Properties of [get_packmol_wf] *)

Lemma forcefield_not_global : module_globals !! "forcefield" = None.
Proof. reflexivity. Qed.

Lemma forcefield_not_local :
  "forcefield" ∉ get_packmol_wf_params ++ get_packmol_wf_assigned.
Proof.
  intros H. rewrite list_elem_of_In in H. simpl in H.
  repeat (destruct H as [H|H]; [discriminate H|]). exact H.
Qed.

Lemma force_field_is_param : "force_field" ∈ get_packmol_wf_params.
Proof. rewrite list_elem_of_In. simpl. tauto. Qed.

(** The comprehension succeeds exactly on the entries' ["number"] fields. *)
Lemma mols_number_of_ok (packing_config : list (gmap string pyval)) :
  Forall (λ mol_config, is_Some (mol_config !! "number")) packing_config →
  ∃ mols_number,
    mols_number_of packing_config = Ok mols_number ∧
    Some <$> mols_number = (λ mol_config, mol_config !! "number") <$> packing_config.
Proof.
  induction 1 as [|mol_config rest [n Hn] _ (ns & IH & Hns)].
  - by exists [].
  - exists (n :: ns). cbn [mols_number_of]. rewrite Hn, IH.
    split; [done|]. by rewrite !fmap_cons, Hns, Hn.
Qed.

(** In a namespace without [forcefield] the call raises whatever the
    comprehension raises, and else the name error. *)
Lemma get_packmol_wf_in_unbound G a1 a2 a3 (pc : list (gmap string pyval))
    a5 a6 a7 a8 ft a10 a11 a12 a13 a14 :
  G !! "forcefield" = None →
  get_packmol_wf_in G a1 a2 a3 pc a5 a6 a7 a8 ft a10 a11 a12 a13 a14
  = match mols_number_of pc with
    | Ok _ => Raise (NameError "forcefield")
    | Raise e => Raise e
    end.
Proof.
  intros HG. unfold get_packmol_wf_in, rbind, load_global. rewrite HG.
  by destruct (mols_number_of pc).
Qed.

(** In a namespace that binds [forcefield] the call goes through. *)
Lemma get_packmol_wf_in_bound G a1 a2 a3 (pc : list (gmap string pyval))
    a5 a6 a7 a8 ft a10 a11 a12 a13 a14 wf :
  get_packmol_wf_in G a1 a2 a3 pc a5 a6 a7 a8 ft a10 a11 a12 a13 a14 = Ok wf →
  ∃ ns pk kw,
    mols_number_of pc = Ok ns ∧
    wf = {| wf_fireworks := [Tuple [NodePackmol pk []];
                             NodeForceField kw [Tuple [NodePackmol pk []]]];
            wf_name := None |} ∧
    pk_output_file pk = ("packed." ++ ft)%string ∧
    ff_data_source kw = ("packed." ++ ft)%string ∧
    ff_mols_number kw = ns ∧
    G !! "forcefield" = Some (ff_forcefield kw) ∧
    ff_log_filename kw = "lammps.log".
Proof.
  unfold get_packmol_wf_in, rbind, load_global.
  destruct (mols_number_of pc) as [ns|e]; [|discriminate].
  destruct (G !! "forcefield") as [v|]; [|discriminate].
  intros [= <-]. by eexists _, _, _.
Qed.

(** C2 does not hold of the code.  At a well-formed input the call raises
    the name error instead of returning a graph; and in a namespace that
    happens to bind [forcefield], the first item handed to the graph
    container, which is also the declared parent, is a one-element tuple
    (the statement that builds the packing node ends in a comma), not a
    task node. *)
Theorem C2_packmol_call_raises :
  get_packmol_wf_defaults (VStr "in.lammps") (VDictRef 0) (VObj "molecules")
    [{["number" := VInt 3]}; {["number" := VInt 10]}]
    (VObj "force_field") (VObj "box_size")
  = Raise (NameError "forcefield")
  ∧ ∃ wf,
      get_packmol_wf_in (<["forcefield" := VObj "outer"]> module_globals)
        (VStr "in.lammps") (VDictRef 0) (VObj "molecules")
        [{["number" := VInt 3]}; {["number" := VInt 10]}]
        (VObj "force_field") (VObj "box_size")
        VNone (VFloat 20 (-1)) "xyz" VNone (VStr "lammps") VNone VNone
        (VStr "LAMMPS packmol Wflow")
      = Ok wf ∧
      is_node <$> wf_fireworks wf = [false; true] ∧
      (λ o, is_node <$> parents_of o) <$> wf_fireworks wf = [[]; [false]].
Proof. split; [reflexivity|]. eexists. split; [reflexivity|]. split; reflexivity. Qed.

(** C3: the body reads the force field under the name [forcefield]; the
    parameter is called [force_field], and [forcefield] is neither a local
    name of the function nor a name of the module.  So no call returns a
    graph, and every call whose packing entries carry their ["number"]
    field (so that the count sequence is built) fails with the name error
    for [forcefield], raised while the arguments of the force-field node
    are evaluated. *)
Theorem C3_forcefield_is_unbound input_file user_settings molecules
    (packing_config : list (gmap string pyval)) force_field box_size site_property
    tolerance filetype control_params lammps_cmd dump_filenames db_file name :
  "force_field" ∈ get_packmol_wf_params ∧
  ("forcefield" ∉ get_packmol_wf_params ++ get_packmol_wf_assigned) ∧
  module_globals !! "forcefield" = None ∧
  (∀ wf, get_packmol_wf input_file user_settings molecules packing_config force_field
           box_size site_property tolerance filetype control_params lammps_cmd
           dump_filenames db_file name ≠ Ok wf) ∧
  (Forall (λ mol_config, is_Some (mol_config !! "number")) packing_config →
   get_packmol_wf input_file user_settings molecules packing_config force_field
     box_size site_property tolerance filetype control_params lammps_cmd
     dump_filenames db_file name = Raise (NameError "forcefield")).
Proof.
  split; [apply force_field_is_param|].
  split; [apply forcefield_not_local|].
  split; [apply forcefield_not_global|].
  unfold get_packmol_wf.
  rewrite get_packmol_wf_in_unbound by apply forcefield_not_global.
  split.
  - intros wf. by destruct (mols_number_of packing_config).
  - intros Hpc. by destruct (mols_number_of_ok _ Hpc) as (ns & -> & _).
Qed.

Lemma C3_witness :
  Forall (λ mol_config : gmap string pyval, is_Some (mol_config !! "number"))
    [{["number" := VInt 3]}; {["number" := VInt 10]}] ∧
  get_packmol_wf (VStr "in.lammps") (VDictRef 0) (VObj "molecules")
    [{["number" := VInt 3]}; {["number" := VInt 10]}]
    (VObj "force_field") (VObj "box_size") VNone (VFloat 20 (-1)) "xyz" VNone
    (VStr "lammps") VNone VNone (VStr "LAMMPS packmol Wflow")
  = Raise (NameError "forcefield").
Proof.
  assert (Forall (λ mol_config : gmap string pyval, is_Some (mol_config !! "number"))
            [{["number" := VInt 3]}; {["number" := VInt 10]}]) as Hpc.
  { repeat constructor; eexists; reflexivity. }
  split; [exact Hpc|].
  apply (C3_forcefield_is_unbound (VStr "in.lammps") (VDictRef 0) (VObj "molecules")
           [{["number" := VInt 3]}; {["number" := VInt 10]}]
           (VObj "force_field") (VObj "box_size") VNone (VFloat 20 (-1)) "xyz" VNone
           (VStr "lammps") VNone VNone (VStr "LAMMPS packmol Wflow")).
  exact Hpc.
Defined.

(** C9 fails as stated: the log file name that [get_packmol_wf] writes for
    the force-field factory is ["lammps.log"].  In the module's own
    namespace the factory is never reached; in a namespace that binds
    [forcefield] the node carries ["lammps.log"]. *)
Lemma C9_counterexample :
  packmol_log_filename ≠ "log.lammps" ∧
  ff_log_filenames
    (get_packmol_wf_defaults (VStr "in.lammps") (VDictRef 0) (VObj "molecules")
       [{["number" := VInt 3]}; {["number" := VInt 10]}]
       (VObj "force_field") (VObj "box_size"))
  = [] ∧
  ff_log_filenames
    (get_packmol_wf_in (<["forcefield" := VObj "outer"]> module_globals)
       (VStr "in.lammps") (VDictRef 0) (VObj "molecules")
       [{["number" := VInt 3]}; {["number" := VInt 10]}]
       (VObj "force_field") (VObj "box_size")
       VNone (VFloat 20 (-1)) "xyz" VNone (VStr "lammps") VNone VNone
       (VStr "LAMMPS packmol Wflow"))
  = ["lammps.log"].
Proof. split; [discriminate|]. split; reflexivity. Qed.

(** C9, amended: ["log.lammps"] is the default log file name of
    [get_wf_from_input_template] only.  [get_packmol_wf] writes the fixed
    name ["lammps.log"] for the force-field simulation factory: whenever
    the call returns, in whatever namespace, the force-field node carries
    ["lammps.log"].  [get_wf] passes its [log_filename] argument on as it
    is. *)
Theorem C9_packmol_log_filename G input_file user_settings molecules
    (packing_config : list (gmap string pyval)) force_field box_size site_property
    tolerance filetype control_params lammps_cmd dump_filenames db_file name wf :
  get_packmol_wf_in G input_file user_settings molecules packing_config force_field
    box_size site_property tolerance filetype control_params lammps_cmd
    dump_filenames db_file name = Ok wf →
  ff_log_filenames (Ok wf) = ["lammps.log"] ∧
  (∀ nm lis inf dat cmd db log dmp,
     fw_log_filename <$> (wf_fireworks (get_wf nm lis inf dat cmd db log dmp)
                          ≫= λ o, match o with NodeLammps kw _ => [kw] | _ => [] end)
     = [log]) ∧
  (∀ tf ld inf isf cmd dmp db nm (σ : list (gmap string pyval)),
     ∃ σ' kw,
       get_wf_from_input_template tf VNone ld inf isf cmd dmp db nm σ
       = (σ', Ok {| wf_fireworks := [NodeLammps kw []]; wf_name := Some nm |}) ∧
       fw_log_filename kw = VStr "log.lammps").
Proof.
  intros Hwf.
  apply get_packmol_wf_in_bound in Hwf as (ns & pk & kw & _ & -> & _ & _ & _ & _ & Hlog).
  split; [simpl; by rewrite Hlog|]. split; [done|].
  intros. eexists _, _. split; [by apply call_falsy|]. done.
Qed.

Lemma C9_witness :
  ff_log_filenames
    (get_packmol_wf_in (<["forcefield" := VObj "outer"]> module_globals)
       (VStr "in.lammps") (VDictRef 0) (VObj "molecules")
       [{["number" := VInt 3]}; {["number" := VInt 10]}]
       (VObj "force_field") (VObj "box_size")
       VNone (VFloat 20 (-1)) "xyz" VNone (VStr "lammps") VNone VNone
       (VStr "LAMMPS packmol Wflow"))
  = ["lammps.log"].
Proof.
  eapply (C9_packmol_log_filename (<["forcefield" := VObj "outer"]> module_globals)
            (VStr "in.lammps") (VDictRef 0) (VObj "molecules")
            [{["number" := VInt 3]}; {["number" := VInt 10]}]
            (VObj "force_field") (VObj "box_size")
            VNone (VFloat 20 (-1)) "xyz" VNone (VStr "lammps") VNone VNone
            (VStr "LAMMPS packmol Wflow")).
  reflexivity.
Defined.

(** C10: for every packing configuration whose entries carry their
    ["number"] field, the count sequence is built, has the length of the
    packing configuration, and its i-th element is the ["number"] of the
    i-th entry; it is the sequence the force-field node is given. *)
Theorem C10_counts_follow_packing_config (packing_config : list (gmap string pyval)) :
  Forall (λ mol_config, is_Some (mol_config !! "number")) packing_config →
  ∃ mols_number,
    mols_number_of packing_config = Ok mols_number ∧
    length mols_number = length packing_config ∧
    (∀ i mol_config, packing_config !! i = Some mol_config →
       mol_config !! "number" = mols_number !! i) ∧
    (∀ G a1 a2 a3 a5 a6 a7 a8 ft a10 a11 a12 a13 a14 wf,
       get_packmol_wf_in G a1 a2 a3 packing_config a5 a6 a7 a8 ft a10 a11 a12 a13 a14
       = Ok wf →
       wf_fireworks wf ≫= (λ o, match o with
                                 | NodeForceField kw _ => [ff_mols_number kw]
                                 | _ => []
                                 end)
       = [mols_number]).
Proof.
  intros Hpc. destruct (mols_number_of_ok _ Hpc) as (ns & Hns & Hmap).
  exists ns. split; [done|]. split.
  { rewrite <- (length_fmap Some ns), Hmap. by rewrite length_fmap. }
  split.
  - intros i mol_config Hi.
    apply (f_equal (λ l, l !! i)) in Hmap.
    rewrite !list_lookup_fmap, Hi in Hmap. simpl in Hmap.
    destruct (ns !! i); simpl in Hmap; congruence.
  - intros G a1 a2 a3 a5 a6 a7 a8 ft a10 a11 a12 a13 a14 wf Hwf.
    apply get_packmol_wf_in_bound in Hwf
      as (ns' & pk & kw & Hns' & -> & _ & _ & Hkw & _).
    simpl. congruence.
Qed.

Lemma C10_witness :
  let packing_config : list (gmap string pyval) :=
    [{["number" := VInt 3]}; {["number" := VInt 10]}] in
  Forall (λ mol_config, is_Some (mol_config !! "number")) packing_config ∧
  ∃ mols_number,
    mols_number_of packing_config = Ok mols_number ∧
    length mols_number = length packing_config ∧
    (∀ i mol_config, packing_config !! i = Some mol_config →
       mol_config !! "number" = mols_number !! i) ∧
    (∀ G a1 a2 a3 a5 a6 a7 a8 ft a10 a11 a12 a13 a14 wf,
       get_packmol_wf_in G a1 a2 a3 packing_config a5 a6 a7 a8 ft a10 a11 a12 a13 a14
       = Ok wf →
       wf_fireworks wf ≫= (λ o, match o with
                                 | NodeForceField kw _ => [ff_mols_number kw]
                                 | _ => []
                                 end)
       = [mols_number]).
Proof.
  intros packing_config.
  assert (Forall (λ mol_config, is_Some (mol_config !! "number")) packing_config) as Hpc.
  { repeat constructor; eexists; reflexivity. }
  split; [exact Hpc|].
  exact (C10_counts_follow_packing_config packing_config Hpc).
Defined.

(** The example of the spec: counts of [{"number":3},{"number":10}]. *)
Lemma mols_number_of_example :
  mols_number_of [{["number" := VInt 3]}; {["number" := VInt 10]}]
  = Ok [VInt 3; VInt 10].
Proof. reflexivity. Qed.

(** ** Further properties of [get_wf_from_input_template] *)

(** A call on a truthy argument that holds configurations of the store. *)
Lemma call_truthy tf ld inf isf cmd dmp db nm
    (σ : list (gmap string pyval)) v rs :
  truthy σ v = true → as_list v = VDictRef <$> rs →
  Forall (λ r, r < length σ) rs →
  get_wf_from_input_template tf v ld inf isf cmd dmp db nm σ
  = (default_logs rs σ,
     Ok {| wf_fireworks := (λ r, node_for nm tf ld inf isf cmd dmp db (deref σ r)) <$> rs;
           wf_name := Some nm |}).
Proof.
  intros Hv Has Hrs.
  destruct v; simpl in Has; try (destruct rs as [|? [|? ?]]; discriminate).
  - subst items. apply call_list; [|done]. by destruct rs.
  - destruct rs as [|r1 [|? ?]]; try discriminate.
    injection Has as <-. apply Forall_cons in Hrs as [Hr0 _].
    apply call_dict; [done|]. simpl in Hv.
    intros He. by rewrite bool_decide_eq_true_2 in Hv.
Qed.

(** Once every visited configuration has its log file name, the loop
    leaves the store as it is. *)
Lemma default_logs_fixed rs (σ : list (gmap string pyval)) :
  Forall (λ r, is_Some (deref σ r !! "log_file")) rs → default_logs rs σ = σ.
Proof.
  induction 1 as [|r rs Hr _ IH]; [done|].
  rewrite default_logs_cons, with_log_default_present, deref_insert_self by done.
  exact IH.
Qed.

(** The loop stops at the first item that is not a dict. *)
Lemma for_each_stops wn tf ld inf isf cmd dmp db rs x rest
    (σ : list (gmap string pyval)) :
  Forall (λ r, r < length σ) rs → (∀ r, x ≠ VDictRef r) →
  for_each (template_node wn tf ld inf isf cmd dmp db)
    ((VDictRef <$> rs) ++ x :: rest) σ
  = (default_logs rs σ, Raise (AttributeError "get")).
Proof.
  revert σ. induction rs as [|r rs IH]; intros σ Hrs Hx.
  - simpl. unfold bind. by rewrite template_node_not_dict.
  - apply Forall_cons in Hrs as [Hr Hrs].
    rewrite fmap_cons. cbn [app for_each]. unfold bind at 1.
    rewrite template_node_dict by done.
    unfold bind at 1. rewrite IH; [done| |done].
    eapply Forall_impl; [exact Hrs|]. intros r'. simpl. by rewrite length_insert.
Qed.

(** X1: on a single configuration of the store the template assembler
    returns the graph [get_wf] builds from the defaulted file names and
    the input set of the defaulted configuration. *)
Theorem X1_single_configuration_is_get_wf tf ld inf isf cmd dmp db nm
    (σ : list (gmap string pyval)) (r : nat) :
  r < length σ →
  let d := deref σ r in
  let data_filename := default (VStr "lammps.data") (d !! "data_file") in
  let log_filename := default (VStr "log.lammps") (d !! "log_file") in
  (get_wf_from_input_template tf (VDictRef r) ld inf isf cmd dmp db nm σ).2
  = Ok (get_wf nm
          {| lis_name := nm;
             lis_input_template := tf;
             lis_user_settings := <["log_file" := log_filename]> d;
             lis_lammps_data := ld;
             lis_data_filename := data_filename;
             lis_is_forcefield := isf |}
          inf data_filename cmd db log_filename dmp).
Proof.
  intros Hr d data_filename log_filename.
  assert (with_log_default d = <["log_file" := log_filename]> d) as Hd.
  { unfold with_log_default, log_filename.
    destruct (d !! "log_file") as [w|] eqn:E; simpl; [|done].
    by rewrite insert_id. }
  destruct (decide (d = ∅)) as [He|Hne].
  - rewrite call_falsy by (simpl; by rewrite bool_decide_eq_true_2).
    simpl. unfold node_for, get_wf, LammpsFW. rewrite <- Hd.
    unfold data_filename, log_filename. by rewrite He.
  - rewrite call_dict by done.
    simpl. unfold node_for, get_wf, LammpsFW. by rewrite <- Hd.
Qed.

Lemma X1_witness :
  let σ : list (gmap string pyval) := [{["data_file" := VStr "a.data"]}] in
  let d := deref σ 0 in
  let data_filename := default (VStr "lammps.data") (d !! "data_file") in
  let log_filename := default (VStr "log.lammps") (d !! "log_file") in
  (get_wf_from_input_template (VStr "in.template") (VDictRef 0) VNone (VStr "lammps.in")
     (VBool false) (VStr "lammps") VNone VNone (VStr "wf") σ).2
  = Ok (get_wf (VStr "wf")
          {| lis_name := VStr "wf";
             lis_input_template := VStr "in.template";
             lis_user_settings := <["log_file" := log_filename]> d;
             lis_lammps_data := VNone;
             lis_data_filename := data_filename;
             lis_is_forcefield := VBool false |}
          (VStr "lammps.in") data_filename (VStr "lammps") VNone log_filename VNone).
Proof.
  intros σ. apply X1_single_configuration_is_get_wf. simpl. lia.
Defined.

(** X2: an item of a [user_settings] list that is not a dict makes the
    call raise the attribute error for [get]; the configurations before it
    have received their default log file name by then, those after it are
    not visited, and no graph is returned. *)
Theorem X2_non_dict_item_raises tf ld inf isf cmd dmp db nm
    (σ : list (gmap string pyval)) rs x rest :
  Forall (λ r, r < length σ) rs → (∀ r, x ≠ VDictRef r) →
  get_wf_from_input_template tf (VList ((VDictRef <$> rs) ++ x :: rest))
    ld inf isf cmd dmp db nm σ
  = (default_logs rs σ, Raise (AttributeError "get")).
Proof.
  intros Hrs Hx. unfold get_wf_from_input_template. unfold bind at 1.
  rewrite or_new_dict_ok.
  assert (truthy σ (VList ((VDictRef <$> rs) ++ x :: rest)) = true) as ->.
  { simpl. by destruct rs. }
  unfold bind. cbn [as_list]. by rewrite for_each_stops.
Qed.

Lemma X2_witness :
  let σ : list (gmap string pyval) := [∅; ∅] in
  get_wf_from_input_template (VStr "in.template")
    (VList ((VDictRef <$> [0]) ++ VStr "oops" :: [VDictRef 1])) VNone (VStr "lammps.in")
    (VBool false) (VStr "lammps") VNone VNone (VStr "wf") σ
  = (default_logs [0] σ, Raise (AttributeError "get")).
Proof.
  intros σ.
  apply (X2_non_dict_item_raises _ _ _ _ _ _ _ _ σ [0] (VStr "oops") [VDictRef 1]).
  - repeat constructor.
  - discriminate.
Defined.

(** X3: a second call on the same truthy argument returns the same graph
    as the first and leaves the store as the first call left it. *)
Theorem X3_second_call_changes_nothing tf ld inf isf cmd dmp db nm
    (σ : list (gmap string pyval)) v rs :
  truthy σ v = true → as_list v = VDictRef <$> rs →
  Forall (λ r, r < length σ) rs →
  ∃ σ' wf,
    get_wf_from_input_template tf v ld inf isf cmd dmp db nm σ = (σ', Ok wf) ∧
    get_wf_from_input_template tf v ld inf isf cmd dmp db nm σ' = (σ', Ok wf).
Proof.
  intros Hv Has Hrs. eexists _, _. split; [by apply call_truthy|].
  assert (∀ r, r ∈ rs →
            deref (default_logs rs σ) r = with_log_default (deref σ r)) as Hd.
  { intros r Hin. apply default_logs_visited; [|done].
    by eapply Forall_forall in Hrs. }
  rewrite (call_truthy _ _ _ _ _ _ _ _ _ v rs); [|
    |done|by rewrite Forall_forall in *; intros; rewrite default_logs_length; auto].
  - f_equal.
    + apply default_logs_fixed, Forall_forall. intros r Hin.
      rewrite Hd, with_log_default_log by done. eauto.
    + do 2 f_equal. apply list_fmap_ext. intros i r Hi.
      rewrite Hd by (by eapply list_elem_of_lookup_2). apply node_for_idem.
  - destruct v; try done. simpl in *.
    destruct rs as [|r1 [|? ?]]; try discriminate. injection Has as <-.
    rewrite Hd by apply list_elem_of_here.
    rewrite bool_decide_eq_false_2; [done|].
    intros He. pose proof (with_log_default_log (deref σ r)) as Hl.
    by rewrite He in Hl.
Qed.

Lemma X3_witness :
  let σ : list (gmap string pyval) := [{["data_file" := VStr "a.data"]}; ∅] in
  let v := VList [VDictRef 1; VDictRef 0] in
  ∃ σ' wf,
    get_wf_from_input_template (VStr "in.template") v VNone (VStr "lammps.in")
      (VBool false) (VStr "lammps") VNone VNone (VStr "wf") σ = (σ', Ok wf) ∧
    get_wf_from_input_template (VStr "in.template") v VNone (VStr "lammps.in")
      (VBool false) (VStr "lammps") VNone VNone (VStr "wf") σ' = (σ', Ok wf).
Proof.
  intros σ v.
  apply (X3_second_call_changes_nothing _ _ _ _ _ _ _ _ σ v [1; 0]).
  - reflexivity.
  - reflexivity.
  - repeat constructor.
Defined.

(** The loop allocates nothing. *)
Lemma for_each_length wn tf ld inf isf cmd dmp db vs
    (σ : list (gmap string pyval)) :
  length (for_each (template_node wn tf ld inf isf cmd dmp db) vs σ).1 = length σ.
Proof.
  revert σ. induction vs as [|v vs IH]; intros σ; [done|].
  cbn [for_each]. unfold bind at 1.
  pose proof (template_node_store wn tf ld inf isf cmd dmp db σ v) as Hst.
  destruct (template_node wn tf ld inf isf cmd dmp db v σ) as [σ1 [y|e]];
    simpl in Hst.
  - unfold bind at 1. specialize (IH σ1).
    destruct (for_each _ vs σ1) as [σ2 [ys|e]]; simpl in *;
      rewrite IH, Hst; destruct v; by rewrite ?length_insert.
  - simpl. rewrite Hst. destruct v; by rewrite ?length_insert.
Qed.

(** The store after the whole call, by the branch [or] takes. *)
Lemma get_wf_from_input_template_length tf us ld inf isf cmd dmp db nm
    (σ : list (gmap string pyval)) :
  length (get_wf_from_input_template tf us ld inf isf cmd dmp db nm σ).1
  = length σ + (if truthy σ us then 0 else 1).
Proof.
  unfold get_wf_from_input_template. unfold bind at 1. rewrite or_new_dict_ok.
  destruct (truthy σ us); unfold bind.
  - pose proof (for_each_length nm tf ld inf isf cmd dmp db (as_list us) σ) as Hl.
    destruct (for_each _ _ σ) as [σ1 [ys|e]]; simpl in *; lia.
  - pose proof (for_each_length nm tf ld inf isf cmd dmp db
                  (as_list (VDictRef (length σ))) (σ ++ [∅])) as Hl.
    rewrite length_app in Hl.
    destruct (for_each _ _ (σ ++ [∅])) as [σ1 [ys|e]]; simpl in *; lia.
Qed.

(** X4: whatever is passed as [user_settings], and whether the call
    returns or raises, it removes no dict from the store and creates at
    most one.  It creates none when [user_settings] is a non-empty list or
    a non-empty dict, and exactly one when it is [None], the empty list or
    an empty dict. *)
Theorem X4_at_most_one_new_dict tf us ld inf isf cmd dmp db nm
    (σ : list (gmap string pyval)) :
  let n := length (get_wf_from_input_template tf us ld inf isf cmd dmp db nm σ).1 in
  length σ ≤ n ≤ length σ + 1 ∧
  ((∃ x items, us = VList (x :: items)) ∨ (∃ r, us = VDictRef r ∧ deref σ r ≠ ∅) →
   n = length σ) ∧
  (us = VNone ∨ us = VList [] ∨ (∃ r, us = VDictRef r ∧ deref σ r = ∅) →
   n = length σ + 1).
Proof.
  intros n. subst n. rewrite get_wf_from_input_template_length. repeat split.
  - lia.
  - destruct (truthy σ us); lia.
  - intros [(x & items & ->)|(r & -> & Hne)]; simpl.
    + lia.
    + rewrite bool_decide_eq_false_2 by done. simpl. lia.
  - intros [-> | [-> | (r & -> & He)]]; simpl; try lia.
    rewrite bool_decide_eq_true_2 by done. simpl. lia.
Qed.

Lemma X4_witness :
  let σ : list (gmap string pyval) := [∅; {["data_file" := VStr "a.data"]}] in
  length (get_wf_from_input_template (VStr "in.template") (VDictRef 1) VNone
            (VStr "lammps.in") (VBool false) (VStr "lammps") VNone VNone
            (VStr "wf") σ).1 = length σ
  ∧ length (get_wf_from_input_template (VStr "in.template") (VDictRef 0) VNone
              (VStr "lammps.in") (VBool false) (VStr "lammps") VNone VNone
              (VStr "wf") σ).1 = length σ + 1.
Proof.
  intros σ. split.
  - apply (X4_at_most_one_new_dict (VStr "in.template") (VDictRef 1) VNone
             (VStr "lammps.in") (VBool false) (VStr "lammps") VNone VNone
             (VStr "wf") σ).
    right. exists 1. split; [reflexivity|discriminate].
  - apply (X4_at_most_one_new_dict (VStr "in.template") (VDictRef 0) VNone
             (VStr "lammps.in") (VBool false) (VStr "lammps") VNone VNone
             (VStr "wf") σ).
    right. right. exists 0. split; reflexivity.
Defined.





(** The loop leaves alone every dict that is not among its items. *)
Lemma for_each_keeps wn tf ld inf isf cmd dmp db vs
    (σ : list (gmap string pyval)) r :
  VDictRef r ∉ vs →
  deref (for_each (template_node wn tf ld inf isf cmd dmp db) vs σ).1 r = deref σ r.
Proof.
  revert σ. induction vs as [|v vs IH]; intros σ Hr; [done|].
  apply not_elem_of_cons in Hr as [Hne Hr].
  cbn [for_each]. unfold bind at 1.
  pose proof (template_node_store wn tf ld inf isf cmd dmp db σ v) as Hst.
  assert (deref (template_node wn tf ld inf isf cmd dmp db v σ).1 r = deref σ r) as Hv.
  { rewrite Hst. destruct v; try done. rewrite deref_insert_ne; [done|congruence]. }
  destruct (template_node wn tf ld inf isf cmd dmp db v σ) as [σ1 [y|e]];
    simpl in Hv; [|done].
  unfold bind at 1. specialize (IH σ1 Hr).
  destruct (for_each _ vs σ1) as [σ2 [ys|e]]; simpl in *; congruence.
Qed.

(** X6: a dict of the caller that is not an item of [user_settings] (nor
    [user_settings] itself) is exactly as it was after the call, whether
    the call returns or raises. *)
Theorem X6_other_dicts_untouched tf us ld inf isf cmd dmp db nm
    (σ : list (gmap string pyval)) (r : nat) :
  r < length σ → VDictRef r ∉ as_list us →
  deref (get_wf_from_input_template tf us ld inf isf cmd dmp db nm σ).1 r
  = deref σ r.
Proof.
  intros Hr Hnot. unfold get_wf_from_input_template. unfold bind at 1.
  rewrite or_new_dict_ok. destruct (truthy σ us); unfold bind.
  - pose proof (for_each_keeps nm tf ld inf isf cmd dmp db (as_list us) σ r Hnot) as Hk.
    by destruct (for_each _ _ σ) as [σ1 [ys|e]].
  - pose proof (for_each_keeps nm tf ld inf isf cmd dmp db
                  (as_list (VDictRef (length σ))) (σ ++ [∅]) r) as Hk.
    rewrite deref_app_old in Hk by done.
    destruct (for_each _ _ (σ ++ [∅])) as [σ1 [ys|e]]; simpl in *; apply Hk;
      (intros Hin; apply list_elem_of_singleton in Hin; injection Hin; lia).
Qed.

Lemma X6_witness :
  let σ : list (gmap string pyval) := [∅; {["data_file" := VStr "a.data"]}] in
  deref (get_wf_from_input_template (VStr "in.template") (VList [VDictRef 0]) VNone
           (VStr "lammps.in") (VBool false) (VStr "lammps") VNone VNone
           (VStr "wf") σ).1 1
  = deref σ 1.
Proof.
  intros σ. apply X6_other_dicts_untouched.
  - simpl. lia.
  - intros Hin. apply list_elem_of_singleton in Hin. discriminate Hin.
Defined.

(** ** Further properties of [get_packmol_wf] *)

Lemma mols_number_of_missing (packing_config : list (gmap string pyval)) :
  Exists (λ mol_config, mol_config !! "number" = None) packing_config →
  mols_number_of packing_config = Raise (KeyError "number").
Proof.
  induction 1 as [mol_config rest Hn|mol_config rest _ IH]; cbn [mols_number_of].
  - by rewrite Hn.
  - rewrite IH. by destruct (mol_config !! "number").
Qed.

(** X7: a packing entry without a ["number"] field makes the call raise the
    key error for ["number"], in every namespace: the counts are extracted
    before the force field is looked up. *)
Theorem X7_missing_number_raises G input_file user_settings molecules
    (packing_config : list (gmap string pyval)) force_field box_size site_property
    tolerance filetype control_params lammps_cmd dump_filenames db_file name :
  Exists (λ mol_config, mol_config !! "number" = None) packing_config →
  get_packmol_wf_in G input_file user_settings molecules packing_config force_field
    box_size site_property tolerance filetype control_params lammps_cmd
    dump_filenames db_file name
  = Raise (KeyError "number").
Proof.
  intros Hpc. unfold get_packmol_wf_in.
  by rewrite mols_number_of_missing.
Qed.

Lemma X7_witness :
  get_packmol_wf_in module_globals (VStr "in.lammps") (VDictRef 0) (VObj "molecules")
    [{["number" := VInt 3]}; {["count" := VInt 10]}]
    (VObj "force_field") (VObj "box_size") VNone (VFloat 20 (-1)) "xyz" VNone
    (VStr "lammps") VNone VNone (VStr "LAMMPS packmol Wflow")
  = Raise (KeyError "number").
Proof.
  apply X7_missing_number_raises.
  apply Exists_cons_tl, Exists_cons_hd. reflexivity.
Defined.
